(** * Collision-Detection: the axis-aligned bounding box

    A shallow embedding of [src/sources/axis-aligned-bounding-box.cpp]
    (namespace [collision]) and of the double-dispatch protocol it takes
    part in, followed by the properties of the specification that concern
    it.

    Scalars.  The member functions are embedded twice, statement by
    statement the same.

    - Over [float] (modules [Binary32], [GlmF], [AabbF]): the program.  A
      [float] is an IEEE 754 binary32 number, taken from the standard
      library's [SpecFloat] with precision 24 and maximal exponent 128;
      every [+], [-] and [*] is rounded to nearest, ties to even, and the
      comparisons are those of IEEE 754 ([false] on NaN).  [val] reads a
      finite float as the rational it stands for.

    - Over the rationals [Q] (modules [Glm], [Aabb]): the same code in
      exact arithmetic, without rounding, infinities or NaN.  It serves
      the properties that do not depend on rounding, and it is the exact
      value the float results are compared with.  Equality of rationals
      is [Qeq] ([==]); two vectors are compared component by component. *)

From Stdlib Require Import QArith Qabs Lqa List Bool Lia SpecFloat.
Import ListNotations.

Open Scope Q_scope.

(** ** Comparisons of the source, as booleans *)

(** [a < b] *)
Definition Qltb (a b : Q) : bool := negb (Qle_bool b a).

(** [a > b] *)
Definition Qgtb (a b : Q) : bool := negb (Qle_bool a b).

(** ** The linear-algebra primitives (GLM), as far as the source uses them *)

Module Glm.

Record vec3 : Type := Vec3 { x3 : Q; y3 : Q; z3 : Q }.
Record vec4 : Type := Vec4 { x4 : Q; y4 : Q; z4 : Q; w4 : Q }.

(** Matrices are column-major: [m[j]] is column [j], [m[j][i]] its row [i]. *)
Record mat3 : Type := Mat3 { m3c0 : vec3; m3c1 : vec3; m3c2 : vec3 }.
Record mat4 : Type := Mat4 { m4c0 : vec4; m4c1 : vec4; m4c2 : vec4; m4c3 : vec4 }.

(** [operator[]], for reading and for writing through the reference it
    returns.  The loops of the source only use indices below the length. *)
Class Indexed (V E : Type) : Type :=
  { at_ : V -> nat -> E;
    put : V -> nat -> E -> V }.

#[global] Instance vec3_indexed : Indexed vec3 Q :=
  {| at_ v i := match i with O => x3 v | 1%nat => y3 v | _ => z3 v end;
     put v i a :=
       match i with
       | O => Vec3 a (y3 v) (z3 v)
       | 1%nat => Vec3 (x3 v) a (z3 v)
       | _ => Vec3 (x3 v) (y3 v) a
       end |}.

#[global] Instance vec4_indexed : Indexed vec4 Q :=
  {| at_ v i :=
       match i with O => x4 v | 1%nat => y4 v | 2%nat => z4 v | _ => w4 v end;
     put v i a :=
       match i with
       | O => Vec4 a (y4 v) (z4 v) (w4 v)
       | 1%nat => Vec4 (x4 v) a (z4 v) (w4 v)
       | 2%nat => Vec4 (x4 v) (y4 v) a (w4 v)
       | _ => Vec4 (x4 v) (y4 v) (z4 v) a
       end |}.

#[global] Instance mat3_indexed : Indexed mat3 vec3 :=
  {| at_ m j := match j with O => m3c0 m | 1%nat => m3c1 m | _ => m3c2 m end;
     put m j c :=
       match j with
       | O => Mat3 c (m3c1 m) (m3c2 m)
       | 1%nat => Mat3 (m3c0 m) c (m3c2 m)
       | _ => Mat3 (m3c0 m) (m3c1 m) c
       end |}.

#[global] Instance mat4_indexed : Indexed mat4 vec4 :=
  {| at_ m j :=
       match j with O => m4c0 m | 1%nat => m4c1 m | 2%nat => m4c2 m | _ => m4c3 m end;
     put m j c :=
       match j with
       | O => Mat4 c (m4c1 m) (m4c2 m) (m4c3 m)
       | 1%nat => Mat4 (m4c0 m) c (m4c2 m) (m4c3 m)
       | 2%nat => Mat4 (m4c0 m) (m4c1 m) c (m4c3 m)
       | _ => Mat4 (m4c0 m) (m4c1 m) (m4c2 m) c
       end |}.

(** [vec3(v)] of a [vec4]: the first three components. *)
Definition vec3_of_vec4 (v : vec4) : vec3 := Vec3 (x4 v) (y4 v) (z4 v).

(** [a + b] and [a - b] on [vec3]. *)
Definition vadd (a b : vec3) : vec3 :=
  Vec3 (x3 a + x3 b) (y3 a + y3 b) (z3 a + z3 b).
Definition vsub (a b : vec3) : vec3 :=
  Vec3 (x3 a - x3 b) (y3 a - y3 b) (z3 a - z3 b).

(** [mat3(m)] of a [mat4]: the upper-left 3x3 block. *)
Definition mat3_of_mat4 (m : mat4) : mat3 :=
  Mat3 (vec3_of_vec4 (m4c0 m)) (vec3_of_vec4 (m4c1 m)) (vec3_of_vec4 (m4c2 m)).

(** [mat4(m)] of a [mat3]: [m] in the upper-left block, the identity
    elsewhere. *)
Definition mat4_of_mat3 (m : mat3) : mat4 :=
  Mat4 (Vec4 (x3 (m3c0 m)) (y3 (m3c0 m)) (z3 (m3c0 m)) 0)
       (Vec4 (x3 (m3c1 m)) (y3 (m3c1 m)) (z3 (m3c1 m)) 0)
       (Vec4 (x3 (m3c2 m)) (y3 (m3c2 m)) (z3 (m3c2 m)) 0)
       (Vec4 0 0 0 1).

(** [mat4(1.f)] *)
Definition mat4_identity : mat4 :=
  Mat4 (Vec4 1 0 0 0) (Vec4 0 1 0 0) (Vec4 0 0 1 0) (Vec4 0 0 0 1).


(** [dot(a, b)] *)
Definition dot (a b : vec3) : Q := x3 a * x3 b + y3 a * y3 b + z3 a * z3 b.

(** The same numbers, component by component. *)
Definition vec3_eq (a b : vec3) : Prop :=
  x3 a == x3 b /\ y3 a == y3 b /\ z3 a == z3 b.

Definition vec3_eqb (a b : vec3) : bool :=
  Qeq_bool (x3 a) (x3 b) && Qeq_bool (y3 a) (y3 b) && Qeq_bool (z3 a) (z3 b).

End Glm.

Import Glm.

Notation "v .[ i ]" := (at_ v i) (at level 1, left associativity, format "v .[ i ]").

(** [for (int i = 0; i < 3; i++)]: the indices a loop of the source visits. *)
Definition axes : list nat := seq 0 3.

(** ** BoundingVolume, the base class *)

(** Modelled from the spec: [bounding-volume.hpp] is not among the sources.
    The base class owns the world transform ([this->transform] in [update]);
    a volume that was not updated yet carries the identity transform, and
    [getCenter] is the transform's translation column. *)
Record BoundingVolumeBase : Type := Base { transform : mat4 }.

Definition BoundingVolume_default : BoundingVolumeBase := Base mat4_identity.

Definition getCenter (b : BoundingVolumeBase) : vec4 := (transform b).[3].

(** ** AxisAlignedBoundingBox *)

Record AxisAlignedBoundingBox : Type := AABB
  { aabb_base : BoundingVolumeBase;
    initialHalfExtents : vec3;
    halfExtents : vec3 }.

Module Aabb.

(** [AxisAlignedBoundingBox(const vec3& initialHalfExtents)] *)
Definition make (initial : vec3) : AxisAlignedBoundingBox :=
  AABB BoundingVolume_default initial initial.

(** [AxisAlignedBoundingBox(const AxisAlignedBoundingBox& aabb)]: the two
    members are copied; the base class is not named in the initialiser
    list, so it is default-constructed. *)
Definition copy (aabb : AxisAlignedBoundingBox) : AxisAlignedBoundingBox :=
  AABB BoundingVolume_default (initialHalfExtents aabb) (halfExtents aabb).

(** [AxisAlignedBoundingBox(AxisAlignedBoundingBox&& aabb)]: the base class
    and the members are default-constructed, then the two members are
    assigned from [aabb]; moving a [vec3] copies it. *)
Definition moved (aabb : AxisAlignedBoundingBox) : AxisAlignedBoundingBox :=
  let self := AABB BoundingVolume_default (Vec3 0 0 0) (Vec3 0 0 0) in
  let self := AABB (aabb_base self) (initialHalfExtents aabb) (halfExtents self) in
  AABB (aabb_base self) (initialHalfExtents self) (halfExtents aabb).

Definition getHalfExtents (self : AxisAlignedBoundingBox) : vec3 :=
  halfExtents self.

Definition setHalfExtents (h : vec3) (self : AxisAlignedBoundingBox)
  : AxisAlignedBoundingBox :=
  AABB (aabb_base self) h h.

Definition center (self : AxisAlignedBoundingBox) : vec4 :=
  getCenter (aabb_base self).

(** One turn of the loop of [getSquaredDistancePtPointAABB]: two
    independent [if]s, each adding to [sqDist]. *)
Definition sqDist_step (min max p : vec3) (sqDist : Q) (i : nat) : Q :=
  let v := p.[i] in
  let sqDist :=
    if Qltb v min.[i] then sqDist + (min.[i] - v) * (min.[i] - v) else sqDist in
  let sqDist :=
    if Qgtb v max.[i] then sqDist + (v - max.[i]) * (v - max.[i]) else sqDist in
  sqDist.

Definition getSquaredDistancePtPointAABB (self : AxisAlignedBoundingBox) (p : vec3) : Q :=
  let sqDist := 0 in
  let min := vsub (vec3_of_vec4 (center self)) (halfExtents self) in
  let max := vadd (vec3_of_vec4 (center self)) (halfExtents self) in
  fold_left (sqDist_step min max p) axes sqDist.

(** [halfExtents[i] = e], on the object. *)
Definition store_halfExtent (i : nat) (e : Q) (self : AxisAlignedBoundingBox)
  : AxisAlignedBoundingBox :=
  AABB (aabb_base self) (initialHalfExtents self) (put (halfExtents self) i e).

(** The inner loop of [update], for a fixed [i]:
    [halfExtents[i] += fabs(upperLeft[j][i] * initialHalfExtents[j])]. *)
Definition update_inner (upperLeft : mat3) (i : nat)
           (self : AxisAlignedBoundingBox) (j : nat) : AxisAlignedBoundingBox :=
  store_halfExtent i
    ((halfExtents self).[i] + Qabs (upperLeft.[j].[i] * (initialHalfExtents self).[j]))
    self.

(** The outer loop of [update]: reset [halfExtents[i]], then accumulate. *)
Definition update_outer (upperLeft : mat3)
           (self : AxisAlignedBoundingBox) (i : nat) : AxisAlignedBoundingBox :=
  let self := store_halfExtent i 0 self in
  fold_left (update_inner upperLeft i) axes self.

(** [void update(const mat4& transform)].  The argument is a value of its
    own: it is not the object's stored transform passed back by
    reference. *)
Definition update (t : mat4) (self : AxisAlignedBoundingBox) : AxisAlignedBoundingBox :=
  let upperLeft := mat3_of_mat4 t in
  let center := t.[3] in
  let self := fold_left (update_outer upperLeft) axes self in
  let self :=
    AABB (Base (mat4_of_mat3 upperLeft)) (initialHalfExtents self) (halfExtents self) in
  AABB (Base (put (transform (aabb_base self)) 3%nat center))
       (initialHalfExtents self) (halfExtents self).

(** [update(transform)] when [transform] is the object's own stored
    transform, handed over by reference: [center] is bound to
    [this->transform[3]] and is read only after [this->transform] was
    assigned. *)
Definition update_own (self : AxisAlignedBoundingBox) : AxisAlignedBoundingBox :=
  let upperLeft := mat3_of_mat4 (transform (aabb_base self)) in
  let self := fold_left (update_outer upperLeft) axes self in
  let self :=
    AABB (Base (mat4_of_mat3 upperLeft)) (initialHalfExtents self) (halfExtents self) in
  let center := (transform (aabb_base self)).[3] in
  AABB (Base (put (transform (aabb_base self)) 3%nat center))
       (initialHalfExtents self) (halfExtents self).

(** The loop of the AABB branch of [isIntersecting]: [return false] at the
    first separated axis, [return true] after the loop. *)
Fixpoint overlap_loop (center bCenter : vec4) (halfExtents bHalfExtents : vec3)
         (todo : list nat) : bool :=
  match todo with
  | [] => true
  | i :: todo =>
      if Qgtb (Qabs (center.[i] - bCenter.[i])) (halfExtents.[i] + bHalfExtents.[i])
      then false
      else overlap_loop center bCenter halfExtents bHalfExtents todo
  end.

End Aabb.

(** ** The other concrete volumes *)

(** Modelled from the spec: [bounding-sphere.hpp] is not among the sources.
    The box reads a sphere through [getCenter()] and [getRadius()]. *)
Record BoundingSphere : Type := Sphere
  { sphere_base : BoundingVolumeBase;
    radius : Q }.

Definition getRadius (s : BoundingSphere) : Q := radius s.

(** [oriented-bounding-box.hpp]: the private members of the class. *)
Record OrientedBoundingBox : Type := OBB
  { obb_base : BoundingVolumeBase;
    obb_halfExtents : vec3;
    xAxis : vec3;
    yAxis : vec3;
    zAxis : vec3 }.

(** ** Double dispatch *)

Section Volumes.

(** Modelled from the spec: [bounding-capsule.hpp] is not among the
    sources; the representation of a capsule is left open. *)
Variable BoundingCapsule : Type.

(** What a [BoundingVolume*] points to: one of the four concrete classes,
    told apart by [dynamic_cast]. *)
Inductive BoundingVolume : Type :=
| IsSphere (s : BoundingSphere)
| IsAABB (a : AxisAlignedBoundingBox)
| IsOBB (o : OrientedBoundingBox)
| IsCapsule (c : BoundingCapsule).

(** A virtual call [bv->isIntersecting(other)]; [None] when the call depth
    allowed to it is used up before it returns. *)
Definition virtual_call : Type := BoundingVolume -> BoundingVolume -> option bool.

(** [bool AxisAlignedBoundingBox::isIntersecting(BoundingVolume*& bv) const] *)
Definition AABB_isIntersecting (call : virtual_call)
           (self : AxisAlignedBoundingBox) (bv : BoundingVolume) : option bool :=
  match bv with
  | IsSphere bSphere =>
      let sphereCenter := vec3_of_vec4 (getCenter (sphere_base bSphere)) in
      let radius := getRadius bSphere in
      let sqDist := Aabb.getSquaredDistancePtPointAABB self sphereCenter in
      Some (Qle_bool sqDist (radius * radius))
  | IsAABB bAABB =>
      let center := Aabb.center self in
      let bCenter := Aabb.center bAABB in
      let bHalfExents := Aabb.getHalfExtents bAABB in
      Some (Aabb.overlap_loop center bCenter (halfExtents self) bHalfExents axes)
  | _ =>
      let self := IsAABB self in
      call bv self
  end.

(** Modelled from the spec: the closed-form tests of the sphere, of the
    oriented box and of the capsule are in source files that are not
    given (sections 4.2, 4.4 and 4.5).  They are arbitrary tests here;
    [receiver_argument] is the test the receiver's class runs on an
    argument of that class. *)
Record ClosedFormTests : Type :=
  { sphere_sphere : BoundingSphere -> BoundingSphere -> bool;
    sphere_obb : BoundingSphere -> OrientedBoundingBox -> bool;
    sphere_capsule : BoundingSphere -> BoundingCapsule -> bool;
    obb_sphere : OrientedBoundingBox -> BoundingSphere -> bool;
    obb_aabb : OrientedBoundingBox -> AxisAlignedBoundingBox -> bool;
    obb_obb : OrientedBoundingBox -> OrientedBoundingBox -> bool;
    capsule_sphere : BoundingCapsule -> BoundingSphere -> bool;
    capsule_aabb : BoundingCapsule -> AxisAlignedBoundingBox -> bool;
    capsule_obb : BoundingCapsule -> OrientedBoundingBox -> bool;
    capsule_capsule : BoundingCapsule -> BoundingCapsule -> bool }.

Variable tests : ClosedFormTests.

(** Modelled from the spec: [BoundingSphere::isIntersecting] (section 4.2)
    has a test of its own for every class; against a box it compares the
    box's squared distance to the sphere's centre with [radius^2]. *)
Definition Sphere_isIntersecting (self : BoundingSphere) (bv : BoundingVolume)
  : option bool :=
  match bv with
  | IsSphere s => Some (sphere_sphere tests self s)
  | IsAABB a =>
      let sqDist :=
        Aabb.getSquaredDistancePtPointAABB a (vec3_of_vec4 (getCenter (sphere_base self))) in
      Some (Qle_bool sqDist (radius self * radius self))
  | IsOBB o => Some (sphere_obb tests self o)
  | IsCapsule c => Some (sphere_capsule tests self c)
  end.

(** Modelled from the spec: [OrientedBoundingBox::isIntersecting]
    (section 4.4) tests a sphere, an axis-aligned box and an oriented box
    itself, and hands any other argument the call with the roles swapped
    (section 4.1). *)
Definition OBB_isIntersecting (call : virtual_call)
           (self : OrientedBoundingBox) (bv : BoundingVolume) : option bool :=
  match bv with
  | IsSphere s => Some (obb_sphere tests self s)
  | IsAABB a => Some (obb_aabb tests self a)
  | IsOBB o => Some (obb_obb tests self o)
  | IsCapsule _ => call bv (IsOBB self)
  end.

(** Modelled from the spec: [BoundingCapsule::isIntersecting]
    (section 4.5) has a test of its own for every class. *)
Definition Capsule_isIntersecting (self : BoundingCapsule) (bv : BoundingVolume)
  : option bool :=
  match bv with
  | IsSphere s => Some (capsule_sphere tests self s)
  | IsAABB a => Some (capsule_aabb tests self a)
  | IsOBB o => Some (capsule_obb tests self o)
  | IsCapsule c => Some (capsule_capsule tests self c)
  end.

(** [self->isIntersecting(bv)], resolved on the class of [self].  [depth]
    bounds the number of nested calls of [isIntersecting]: the call itself
    counts for one, every delegation for one more. *)
Fixpoint isIntersecting (depth : nat) (self bv : BoundingVolume) : option bool :=
  match depth with
  | O => None
  | S depth =>
      match self with
      | IsSphere s => Sphere_isIntersecting s bv
      | IsAABB a => AABB_isIntersecting (isIntersecting depth) a bv
      | IsOBB o => OBB_isIntersecting (isIntersecting depth) o bv
      | IsCapsule c => Capsule_isIntersecting c bv
      end
  end.

End Volumes.

Arguments IsSphere {BoundingCapsule} s.
Arguments IsAABB {BoundingCapsule} a.
Arguments IsOBB {BoundingCapsule} o.
Arguments IsCapsule {BoundingCapsule} c.
Arguments AABB_isIntersecting {BoundingCapsule} call self bv.
Arguments isIntersecting {BoundingCapsule} tests depth self bv.

(** ** The program in binary32 *)

(** The scalars of the program: IEEE 754 binary32 with round to nearest,
    ties to even, every operation rounded on its own (no fused
    multiply-add).  Where [fabs] is the C function on [double], its float
    argument converts exactly and the one addition or comparison made in
    [double] gives the float result of the float operation. *)
Module Binary32.

Definition float : Type := spec_float.

Definition prec : Z := 24.
Definition emax : Z := 128.

Definition fadd : float -> float -> float := SFadd prec emax.
Definition fsub : float -> float -> float := SFsub prec emax.
Definition fmul : float -> float -> float := SFmul prec emax.

(** [fabs(a)] *)
Definition fabs : float -> float := SFabs.

(** [a < b], [a > b], [a <= b] and [a == b]: [false] when either side is
    NaN. *)
Definition fltb : float -> float -> bool := SFltb.
Definition fgtb (a b : float) : bool := SFltb b a.
Definition fleb : float -> float -> bool := SFleb.

(** The float nearest to [m * 2^e]. *)
Definition lit (m e : Z) : float := binary_normalize prec emax m e false.

(** [0.f] and [1.f] *)
Definition zero : float := S754_zero false.
Definition one : float := S754_finite false 8388608 (-23).

(** The number a finite float stands for; [0] for an infinity or NaN. *)
Definition val (a : float) : Q :=
  match a with
  | S754_finite s m e =>
      (if s then - inject_Z (Zpos m) else inject_Z (Zpos m)) * Qpower 2 e
  | _ => 0
  end.

End Binary32.

Import Binary32.

(** GLM's vectors and matrices over [float]. *)
Module GlmF.

Record fvec3 : Type := FVec3 { fx3 : float; fy3 : float; fz3 : float }.
Record fvec4 : Type := FVec4 { fx4 : float; fy4 : float; fz4 : float; fw4 : float }.
Record fmat3 : Type := FMat3 { fm3c0 : fvec3; fm3c1 : fvec3; fm3c2 : fvec3 }.
Record fmat4 : Type := FMat4 { fm4c0 : fvec4; fm4c1 : fvec4; fm4c2 : fvec4; fm4c3 : fvec4 }.

#[global] Instance fvec3_indexed : Indexed fvec3 float :=
  {| at_ v i := match i with O => fx3 v | 1%nat => fy3 v | _ => fz3 v end;
     put v i a :=
       match i with
       | O => FVec3 a (fy3 v) (fz3 v)
       | 1%nat => FVec3 (fx3 v) a (fz3 v)
       | _ => FVec3 (fx3 v) (fy3 v) a
       end |}.

#[global] Instance fvec4_indexed : Indexed fvec4 float :=
  {| at_ v i :=
       match i with O => fx4 v | 1%nat => fy4 v | 2%nat => fz4 v | _ => fw4 v end;
     put v i a :=
       match i with
       | O => FVec4 a (fy4 v) (fz4 v) (fw4 v)
       | 1%nat => FVec4 (fx4 v) a (fz4 v) (fw4 v)
       | 2%nat => FVec4 (fx4 v) (fy4 v) a (fw4 v)
       | _ => FVec4 (fx4 v) (fy4 v) (fz4 v) a
       end |}.

#[global] Instance fmat3_indexed : Indexed fmat3 fvec3 :=
  {| at_ m j := match j with O => fm3c0 m | 1%nat => fm3c1 m | _ => fm3c2 m end;
     put m j c :=
       match j with
       | O => FMat3 c (fm3c1 m) (fm3c2 m)
       | 1%nat => FMat3 (fm3c0 m) c (fm3c2 m)
       | _ => FMat3 (fm3c0 m) (fm3c1 m) c
       end |}.

#[global] Instance fmat4_indexed : Indexed fmat4 fvec4 :=
  {| at_ m j :=
       match j with O => fm4c0 m | 1%nat => fm4c1 m | 2%nat => fm4c2 m | _ => fm4c3 m end;
     put m j c :=
       match j with
       | O => FMat4 c (fm4c1 m) (fm4c2 m) (fm4c3 m)
       | 1%nat => FMat4 (fm4c0 m) c (fm4c2 m) (fm4c3 m)
       | 2%nat => FMat4 (fm4c0 m) (fm4c1 m) c (fm4c3 m)
       | _ => FMat4 (fm4c0 m) (fm4c1 m) (fm4c2 m) c
       end |}.

(** [vec3(v)] of a [vec4]. *)
Definition fvec3_of_fvec4 (v : fvec4) : fvec3 := FVec3 (fx4 v) (fy4 v) (fz4 v).

(** [a + b] and [a - b] on [vec3], component by component. *)
Definition fvadd (a b : fvec3) : fvec3 :=
  FVec3 (fadd (fx3 a) (fx3 b)) (fadd (fy3 a) (fy3 b)) (fadd (fz3 a) (fz3 b)).
Definition fvsub (a b : fvec3) : fvec3 :=
  FVec3 (fsub (fx3 a) (fx3 b)) (fsub (fy3 a) (fy3 b)) (fsub (fz3 a) (fz3 b)).

(** [mat3(m)] of a [mat4], and [mat4(m)] of a [mat3]. *)
Definition fmat3_of_fmat4 (m : fmat4) : fmat3 :=
  FMat3 (fvec3_of_fvec4 (fm4c0 m)) (fvec3_of_fvec4 (fm4c1 m)) (fvec3_of_fvec4 (fm4c2 m)).

Definition fmat4_of_fmat3 (m : fmat3) : fmat4 :=
  FMat4 (FVec4 (fx3 (fm3c0 m)) (fy3 (fm3c0 m)) (fz3 (fm3c0 m)) zero)
        (FVec4 (fx3 (fm3c1 m)) (fy3 (fm3c1 m)) (fz3 (fm3c1 m)) zero)
        (FVec4 (fx3 (fm3c2 m)) (fy3 (fm3c2 m)) (fz3 (fm3c2 m)) zero)
        (FVec4 zero zero zero one).

(** [mat4(1.f)] *)
Definition fmat4_identity : fmat4 :=
  FMat4 (FVec4 one zero zero zero) (FVec4 zero one zero zero)
        (FVec4 zero zero one zero) (FVec4 zero zero zero one).


(** The numbers the components stand for. *)
Definition val3 (v : fvec3) : vec3 := Vec3 (val (fx3 v)) (val (fy3 v)) (val (fz3 v)).
Definition val4 (v : fvec4) : vec4 :=
  Vec4 (val (fx4 v)) (val (fy4 v)) (val (fz4 v)) (val (fw4 v)).
Definition valm4 (m : fmat4) : mat4 :=
  Mat4 (val4 (fm4c0 m)) (val4 (fm4c1 m)) (val4 (fm4c2 m)) (val4 (fm4c3 m)).

End GlmF.

Import GlmF.

(** Modelled from the spec: the base class, as above, over [float]. *)
Record BoundingVolumeBaseF : Type := FBase { ftransform : fmat4 }.

Definition fBoundingVolume_default : BoundingVolumeBaseF := FBase fmat4_identity.

Definition fgetCenter (b : BoundingVolumeBaseF) : fvec4 := (ftransform b).[3].

Record AxisAlignedBoundingBoxF : Type := FAABB
  { faabb_base : BoundingVolumeBaseF;
    finitialHalfExtents : fvec3;
    fhalfExtents : fvec3 }.

(** Modelled from the spec: the sphere, read through [getCenter()] and
    [getRadius()]. *)
Record BoundingSphereF : Type := FSphere
  { fsphere_base : BoundingVolumeBaseF;
    fradius : float }.

(** The member functions of [axis-aligned-bounding-box.cpp], statement by
    statement, on floats. *)
Module AabbF.

(** [AxisAlignedBoundingBox(const vec3& initialHalfExtents)] *)
Definition make (initial : fvec3) : AxisAlignedBoundingBoxF :=
  FAABB fBoundingVolume_default initial initial.

Definition getHalfExtents (self : AxisAlignedBoundingBoxF) : fvec3 :=
  fhalfExtents self.

Definition setHalfExtents (h : fvec3) (self : AxisAlignedBoundingBoxF)
  : AxisAlignedBoundingBoxF :=
  FAABB (faabb_base self) h h.

Definition center (self : AxisAlignedBoundingBoxF) : fvec4 :=
  fgetCenter (faabb_base self).

(** [min] and [max] of [getSquaredDistancePtPointAABB]. *)
Definition box_min (self : AxisAlignedBoundingBoxF) : fvec3 :=
  fvsub (fvec3_of_fvec4 (center self)) (fhalfExtents self).
Definition box_max (self : AxisAlignedBoundingBoxF) : fvec3 :=
  fvadd (fvec3_of_fvec4 (center self)) (fhalfExtents self).

(** One turn of the loop of [getSquaredDistancePtPointAABB]. *)
Definition sqDist_step (min max p : fvec3) (sqDist : float) (i : nat) : float :=
  let v := p.[i] in
  let sqDist :=
    if fltb v min.[i]
    then fadd sqDist (fmul (fsub min.[i] v) (fsub min.[i] v)) else sqDist in
  let sqDist :=
    if fgtb v max.[i]
    then fadd sqDist (fmul (fsub v max.[i]) (fsub v max.[i])) else sqDist in
  sqDist.

Definition getSquaredDistancePtPointAABB (self : AxisAlignedBoundingBoxF) (p : fvec3)
  : float :=
  let sqDist := zero in
  let min := box_min self in
  let max := box_max self in
  fold_left (sqDist_step min max p) axes sqDist.

(** [halfExtents[i] = e], on the object. *)
Definition store_halfExtent (i : nat) (e : float) (self : AxisAlignedBoundingBoxF)
  : AxisAlignedBoundingBoxF :=
  FAABB (faabb_base self) (finitialHalfExtents self) (put (fhalfExtents self) i e).

(** [halfExtents[i] += fabs(upperLeft[j][i] * initialHalfExtents[j])] *)
Definition update_inner (upperLeft : fmat3) (i : nat)
           (self : AxisAlignedBoundingBoxF) (j : nat) : AxisAlignedBoundingBoxF :=
  store_halfExtent i
    (fadd (fhalfExtents self).[i]
          (fabs (fmul upperLeft.[j].[i] (finitialHalfExtents self).[j])))
    self.

(** [halfExtents[i] = 0.f], then the inner loop. *)
Definition update_outer (upperLeft : fmat3)
           (self : AxisAlignedBoundingBoxF) (i : nat) : AxisAlignedBoundingBoxF :=
  let self := store_halfExtent i zero self in
  fold_left (update_inner upperLeft i) axes self.

(** [void update(const mat4& transform)], for an argument that is not the
    object's own stored transform. *)
Definition update (t : fmat4) (self : AxisAlignedBoundingBoxF) : AxisAlignedBoundingBoxF :=
  let upperLeft := fmat3_of_fmat4 t in
  let center := t.[3] in
  let self := fold_left (update_outer upperLeft) axes self in
  let self :=
    FAABB (FBase (fmat4_of_fmat3 upperLeft)) (finitialHalfExtents self) (fhalfExtents self) in
  FAABB (FBase (put (ftransform (faabb_base self)) 3%nat center))
        (finitialHalfExtents self) (fhalfExtents self).

(** The loop of the AABB branch of [isIntersecting]. *)
Fixpoint overlap_loop (center bCenter : fvec4) (halfExtents bHalfExtents : fvec3)
         (todo : list nat) : bool :=
  match todo with
  | [] => true
  | i :: todo =>
      if fgtb (fabs (fsub center.[i] bCenter.[i])) (fadd halfExtents.[i] bHalfExtents.[i])
      then false
      else overlap_loop center bCenter halfExtents bHalfExtents todo
  end.

End AabbF.

Section VolumesF.

(** An oriented box or a capsule: the box only hands it the call. *)
Variable Other : Type.

(** What a [BoundingVolume*] points to, as the casts of the box's
    [isIntersecting] tell: a sphere, a box, or another volume. *)
Inductive BoundingVolumeF : Type :=
| FIsSphere (s : BoundingSphereF)
| FIsAABB (a : AxisAlignedBoundingBoxF)
| FIsOther (o : Other).

(** [bool AxisAlignedBoundingBox::isIntersecting(BoundingVolume*& bv) const];
    [call o self] is [bv->isIntersecting(self)]. *)
Definition AABB_isIntersectingF
           (call : Other -> AxisAlignedBoundingBoxF -> option bool)
           (self : AxisAlignedBoundingBoxF) (bv : BoundingVolumeF) : option bool :=
  match bv with
  | FIsSphere bSphere =>
      let sphereCenter := fvec3_of_fvec4 (fgetCenter (fsphere_base bSphere)) in
      let radius := fradius bSphere in
      let sqDist := AabbF.getSquaredDistancePtPointAABB self sphereCenter in
      Some (fleb sqDist (fmul radius radius))
  | FIsAABB bAABB =>
      let center := AabbF.center self in
      let bCenter := AabbF.center bAABB in
      let bHalfExents := AabbF.getHalfExtents bAABB in
      Some (AabbF.overlap_loop center bCenter (fhalfExtents self) bHalfExents axes)
  | FIsOther o => call o self
  end.

End VolumesF.

Arguments FIsSphere {Other} s.
Arguments FIsAABB {Other} a.
Arguments FIsOther {Other} o.
Arguments AABB_isIntersectingF {Other} call self bv.

(** The box and the sphere in exact numbers. *)
Definition val_box (b : AxisAlignedBoundingBoxF) : AxisAlignedBoundingBox :=
  AABB (Base (valm4 (ftransform (faabb_base b))))
       (val3 (finitialHalfExtents b)) (val3 (fhalfExtents b)).


(** ** The closed forms the specification states *)

(** The sum of [f] over a list of indices, and over the three axes. *)
Definition Qsum (f : nat -> Q) (idx : list nat) : Q :=
  fold_right (fun i acc => f i + acc) 0 idx.

Definition sum_axes (f : nat -> Q) : Q := f 0%nat + f 1%nat + f 2%nat.

(** [sum_j |r[j][i] * h[j]|], the world half-extent of axis [i] for the
    rotation [r] and the rest half-extents [h]. *)
Definition refit (r : mat3) (h : vec3) (i : nat) : Q :=
  sum_axes (fun j => Qabs (r.[j].[i] * h.[j])).

(** [max(a, 0)] *)
Definition Qmax0 (a : Q) : Q := if Qle_bool 0 a then a else 0.

(** The excess of [v] outside the interval [[lo, hi]]: how far [v] lies
    below [lo], and how far above [hi]; both are [0] for [v] inside. *)
Definition excess_below (lo v : Q) : Q := Qmax0 (lo - v).
Definition excess_above (hi v : Q) : Q := Qmax0 (v - hi).

Definition squared_excess (lo hi v : Q) : Q :=
  excess_below lo v * excess_below lo v + excess_above hi v * excess_above hi v.

(** The point of [[lo, hi]] nearest to [v]. *)
Definition clamp (lo hi v : Q) : Q :=
  if Qltb v lo then lo else if Qgtb v hi then hi else v.

(** [|p - q|^2] *)
Definition sqnorm_diff (p q : vec3) : Q := dot (vsub p q) (vsub p q).

(** The nearest point of the box to [p]. *)
Definition closest_point (b : AxisAlignedBoundingBox) (p : vec3) : vec3 :=
  let c := Aabb.center b in
  let h := halfExtents b in
  Vec3 (clamp (c.[0] - h.[0]) (c.[0] + h.[0]) p.[0])
       (clamp (c.[1] - h.[1]) (c.[1] + h.[1]) p.[1])
       (clamp (c.[2] - h.[2]) (c.[2] + h.[2]) p.[2]).


(** ** The closed forms in binary32 *)

(** The float terms [f] of the indices [idx], added to [acc] one after the
    other. *)
Definition fsum_from (f : nat -> float) (idx : list nat) (acc : float) : float :=
  fold_left (fun acc j => fadd acc (f j)) idx acc.

(** The float sum of [f] over the three axes: accumulated from [0.f] in
    the order 0, 1, 2, every addition rounded. *)
Definition fsum_axes (f : nat -> float) : float :=
  fadd (fadd (fadd zero (f 0%nat)) (f 1%nat)) (f 2%nat).

(** The excess of [v] outside [[lo, hi]], as a float: [lo - v] below the
    interval, [v - hi] above it, none inside. *)
Definition fexcess (lo hi v : float) : option float :=
  if fltb v lo then Some (fsub lo v)
  else if fgtb v hi then Some (fsub v hi)
  else None.

(** [acc] plus the float square of the excess, [acc] itself when there is
    none. *)
Definition fadd_square (acc : float) (e : option float) : float :=
  match e with
  | Some d => fadd acc (fmul d d)
  | None => acc
  end.

(** The float sum, from [0.f] over the axes 0, 1, 2, of the squared
    excesses of [p] outside the box of corners [min] and [max]. *)
Definition fsquared_excess_sum (min max p : fvec3) : float :=
  fadd_square
    (fadd_square
       (fadd_square zero (fexcess min.[0] max.[0] p.[0]))
       (fexcess min.[1] max.[1] p.[1]))
    (fexcess min.[2] max.[2] p.[2]).


(** ** Inputs of the examples *)

(** A quarter turn about the z axis, followed by a translation. *)
Definition quarter_turn : mat4 :=
  Mat4 (Vec4 0 1 0 0) (Vec4 (-1) 0 0 0) (Vec4 0 0 1 0) (Vec4 5 (-2) 7 1).

(** The translation to [(cx, cy, cz)]. *)
Definition translation (cx cy cz : Q) : mat4 :=
  Mat4 (Vec4 1 0 0 0) (Vec4 0 1 0 0) (Vec4 0 0 1 0) (Vec4 cx cy cz 1).

(** The box of half-extents [(1, 1, 1)], moved to [(cx, cy, cz)]. *)
Definition unit_box_at (cx cy cz : Q) : AxisAlignedBoundingBox :=
  Aabb.update (translation cx cy cz) (Aabb.make (Vec3 1 1 1)).

(** Closed-form tests to run the dispatch with, where no capsule exists. *)
Definition sample_tests : ClosedFormTests Empty_set :=
  {| sphere_sphere := fun _ _ => false;
     sphere_obb := fun _ _ => false;
     sphere_capsule := fun _ _ => false;
     obb_sphere := fun _ _ => false;
     obb_aabb := fun _ _ => false;
     obb_obb := fun _ _ => false;
     capsule_sphere := fun _ _ => false;
     capsule_aabb := fun _ _ => false;
     capsule_obb := fun _ _ => false;
     capsule_capsule := fun _ _ => false |}.

(** The float translation to [(cx, cy, cz)]. *)
Definition ftranslation (cx cy cz : float) : fmat4 :=
  FMat4 (FVec4 one zero zero zero) (FVec4 zero one zero zero)
        (FVec4 zero zero one zero) (FVec4 cx cy cz one).

(** The float box of half-extents [(h, h, h)], moved to [(cx, cy, cz)]. *)
Definition fcube_at (h cx cy cz : float) : AxisAlignedBoundingBoxF :=
  AabbF.update (ftranslation cx cy cz) (AabbF.make (FVec3 h h h)).

(** A transform whose second column is [(2^-24, 1, 0)]. *)
Definition fskewed : fmat4 :=
  FMat4 (FVec4 one zero zero zero) (FVec4 (lit 1 (-24)) one zero zero)
        (FVec4 zero zero one zero) (FVec4 zero zero zero one).

(** The rotation by 30 degrees about the z axis, in floats:
    [cos = 14529495 * 2^-24], [sin = 1/2]. *)
Definition frot30 : fmat4 :=
  FMat4 (FVec4 (lit 14529495 (-24)) (lit 1 (-1)) zero zero)
        (FVec4 (lit (-1) (-1)) (lit 14529495 (-24)) zero zero)
        (FVec4 zero zero one zero) (FVec4 zero zero zero one).

(** No other volume takes part in the float examples. *)
Definition no_call (o : Empty_set) (self : AxisAlignedBoundingBoxF) : option bool :=
  match o with end.

(** * Properties *)

(** ** Scalars and indexing *)

Lemma Qltb_spec (a b : Q) : Qltb a b = true <-> a < b.
Proof.
  unfold Qltb. rewrite negb_true_iff, <- not_true_iff_false, Qle_bool_iff.
  split; [apply Qnot_le_lt | apply Qlt_not_le].
Qed.

Lemma Qgtb_spec (a b : Q) : Qgtb a b = true <-> b < a.
Proof. apply Qltb_spec. Qed.

Lemma Qgtb_false (a b : Q) : Qgtb a b = false <-> a <= b.
Proof. unfold Qgtb. rewrite negb_false_iff. apply Qle_bool_iff. Qed.

Lemma Qltb_false (a b : Q) : Qltb a b = false <-> b <= a.
Proof. apply Qgtb_false. Qed.

Lemma axes_spec (i : nat) : In i axes <-> (i < 3)%nat.
Proof. unfold axes. rewrite in_seq. lia. Qed.

Lemma Qsum_nil (f : nat -> Q) : Qsum f [] = 0.
Proof. reflexivity. Qed.

Lemma Qsum_cons (f : nat -> Q) (i : nat) (idx : list nat) :
  Qsum f (i :: idx) = f i + Qsum f idx.
Proof. reflexivity. Qed.

Lemma Qsum_axes (f : nat -> Q) : Qsum f axes == sum_axes f.
Proof.
  unfold axes. cbn [seq]. rewrite !Qsum_cons, Qsum_nil. unfold sum_axes. ring.
Qed.

(** Reductions that unroll the loops and leave the arithmetic alone. *)
Ltac unroll :=
  cbn -[Qplus Qmult Qminus Qopp Qabs Qle_bool Qeq Qle Qlt Qltb Qgtb].


Ltac axis_cases i :=
  destruct i as [|[|[|i]]]; [ | | | exfalso; lia ].

Lemma vec3_put_same (v : vec3) (i : nat) (a : Q) : (put v i a).[i] = a.
Proof. destruct i as [|[|i]]; reflexivity. Qed.

Lemma vec3_put_other (v : vec3) (i k : nat) (a : Q) :
  (i < 3)%nat -> (k < 3)%nat -> i <> k -> (put v i a).[k] = v.[k].
Proof.
  intros Hi Hk Hik. axis_cases i; axis_cases k; try reflexivity; contradiction.
Qed.

(** ** update: the loops *)

(** The inner loop adds the terms of the indices it visits to
    [halfExtents[i]], and touches nothing else. *)
Lemma update_inner_loop (r : mat3) (i : nat) (idx : list nat) :
  forall self : AxisAlignedBoundingBox,
    let self' := fold_left (Aabb.update_inner r i) idx self in
    aabb_base self' = aabb_base self /\
    initialHalfExtents self' = initialHalfExtents self /\
    (halfExtents self').[i] ==
      (halfExtents self).[i] +
      Qsum (fun j => Qabs (r.[j].[i] * (initialHalfExtents self).[j])) idx /\
    (forall k, (i < 3)%nat -> (k < 3)%nat -> i <> k ->
               (halfExtents self').[k] = (halfExtents self).[k]).
Proof.
  induction idx as [|j idx IH]; intros self; cbn zeta.
  - split; [reflexivity | split; [reflexivity | split]].
    + rewrite Qsum_nil. cbn [fold_left]. ring.
    + reflexivity.
  - cbn [fold_left].
    destruct (IH (Aabb.update_inner r i self j)) as (Hb & Hi & Hs & Ho).
    split; [ | split; [ | split]].
    + rewrite Hb. reflexivity.
    + rewrite Hi. reflexivity.
    + rewrite Hs. unfold Aabb.update_inner, Aabb.store_halfExtent.
      cbn [halfExtents initialHalfExtents]. rewrite vec3_put_same.
      rewrite Qsum_cons. ring.
    + intros k Hi3 Hk3 Hik. rewrite Ho by assumption.
      unfold Aabb.update_inner, Aabb.store_halfExtent. cbn [halfExtents].
      apply vec3_put_other; assumption.
Qed.

(** One turn of the outer loop gives axis [i] its sum and leaves the other
    axes as they were. *)
Lemma update_outer_turn (r : mat3) (i : nat) (self : AxisAlignedBoundingBox) :
  let self' := Aabb.update_outer r self i in
  aabb_base self' = aabb_base self /\
  initialHalfExtents self' = initialHalfExtents self /\
  (halfExtents self').[i] == refit r (initialHalfExtents self) i /\
  (forall k, (i < 3)%nat -> (k < 3)%nat -> i <> k ->
             (halfExtents self').[k] = (halfExtents self).[k]).
Proof.
  cbn zeta. unfold Aabb.update_outer.
  destruct (update_inner_loop r i axes (Aabb.store_halfExtent i 0 self))
    as (Hb & Hi & Hs & Ho).
  split; [ | split; [ | split]].
  - rewrite Hb. reflexivity.
  - rewrite Hi. reflexivity.
  - rewrite Hs. unfold Aabb.store_halfExtent at 1 2. cbn [halfExtents initialHalfExtents].
    rewrite vec3_put_same, Qsum_axes. unfold refit. ring.
  - intros k Hi3 Hk3 Hik. rewrite Ho by assumption.
    unfold Aabb.store_halfExtent. cbn [halfExtents].
    apply vec3_put_other; assumption.
Qed.

(** The fields of the updated box, read off the body of [update]. *)
Lemma update_fields (t : mat4) (self : AxisAlignedBoundingBox) :
  let looped := fold_left (Aabb.update_outer (mat3_of_mat4 t)) axes self in
  Aabb.update t self =
  AABB (Base (put (mat4_of_mat3 (mat3_of_mat4 t)) 3%nat t.[3]))
       (initialHalfExtents looped) (halfExtents looped).
Proof. reflexivity. Qed.

Lemma update_outer_loop (r : mat3) (self : AxisAlignedBoundingBox) :
  let self' := fold_left (Aabb.update_outer r) axes self in
  initialHalfExtents self' = initialHalfExtents self /\
  forall i, (i < 3)%nat ->
    (halfExtents self').[i] == refit r (initialHalfExtents self) i.
Proof.
  cbn zeta. unfold axes. cbn [seq fold_left].
  set (s0 := Aabb.update_outer r self 0).
  set (s1 := Aabb.update_outer r s0 1).
  set (s2 := Aabb.update_outer r s1 2).
  destruct (update_outer_turn r 0 self) as (_ & I0 & S0 & _).
  destruct (update_outer_turn r 1 s0) as (_ & I1 & S1 & O1).
  destruct (update_outer_turn r 2 s1) as (_ & I2 & S2 & O2).
  fold s0 in I0, S0. fold s1 in I1, S1, O1. fold s2 in I2, S2, O2.
  split.
  - rewrite I2, I1, I0. reflexivity.
  - intros i Hi. axis_cases i.
    + rewrite (O2 0%nat), (O1 0%nat) by lia. exact S0.
    + rewrite (O2 1%nat) by lia. rewrite S1, I0. reflexivity.
    + rewrite S2, I1, I0. reflexivity.
Qed.


Lemma update_halfExtents_refit (t : mat4) (self : AxisAlignedBoundingBox) (i : nat) :
  (i < 3)%nat ->
  (halfExtents (Aabb.update t self)).[i] ==
  refit (mat3_of_mat4 t) (initialHalfExtents self) i.
Proof.
  intros Hi. rewrite update_fields. cbn [halfExtents].
  apply (update_outer_loop (mat3_of_mat4 t) self). exact Hi.
Qed.

Lemma update_keeps_rest_shape (t : mat4) (self : AxisAlignedBoundingBox) :
  initialHalfExtents (Aabb.update t self) = initialHalfExtents self.
Proof.
  rewrite update_fields. cbn [initialHalfExtents].
  apply (update_outer_loop (mat3_of_mat4 t) self).
Qed.

(** [update] reads the rest shape and the transform only: what the derived
    fields held before is overwritten. *)
Lemma update_reads_rest_shape (t : mat4) (a b : AxisAlignedBoundingBox) :
  initialHalfExtents a = initialHalfExtents b ->
  Aabb.update t a = Aabb.update t b.
Proof.
  destruct a as [ba ia ha], b as [bb ib hb]. cbn [initialHalfExtents].
  intros ->. reflexivity.
Qed.

(** ** Claims about update *)

(** C8.  After [update(transform)] the stored transform's translation
    column is the one of [transform], and so is the centre read from it. *)
Theorem update_keeps_translation (t : mat4) (self : AxisAlignedBoundingBox) :
  (transform (aabb_base (Aabb.update t self))).[3] = t.[3] /\
  Aabb.center (Aabb.update t self) = t.[3].
Proof.
  rewrite update_fields. unfold Aabb.center, getCenter.
  cbn [aabb_base transform]. split; reflexivity.
Qed.

(** C10.  [update] leaves [initialHalfExtents] as it was, and a second
    [update] with the same transform changes nothing. *)
Theorem update_frame_and_idempotent (t : mat4) (self : AxisAlignedBoundingBox) :
  initialHalfExtents (Aabb.update t self) = initialHalfExtents self /\
  Aabb.update t (Aabb.update t self) = Aabb.update t self.
Proof.
  split.
  - apply update_keeps_rest_shape.
  - apply update_reads_rest_shape, update_keeps_rest_shape.
Qed.



(** ** Conservative re-fitting *)




(** ** update(identity) on a fresh box *)





(** ** getSquaredDistancePtPointAABB *)

Lemma Qmax0_pos (a : Q) : 0 <= a -> Qmax0 a = a.
Proof. intros H. unfold Qmax0. apply Qle_bool_iff in H. rewrite H. reflexivity. Qed.

Lemma Qmax0_square_neg (a : Q) : a <= 0 -> Qmax0 a * Qmax0 a == 0.
Proof.
  intros H. unfold Qmax0. destruct (Qle_bool 0 a) eqn:E.
  - apply Qle_bool_iff in E. assert (Ha : a == 0) by lra. rewrite Ha. ring.
  - ring.
Qed.

(** One turn of the loop adds the squared excess of the axis. *)
Lemma sqDist_step_spec (min max p : vec3) (sqDist : Q) (i : nat) :
  Aabb.sqDist_step min max p sqDist i ==
  sqDist + squared_excess min.[i] max.[i] p.[i].
Proof.
  unfold Aabb.sqDist_step, squared_excess, excess_below, excess_above. cbn zeta.
  destruct (Qltb p.[i] min.[i]) eqn:Elo; destruct (Qgtb p.[i] max.[i]) eqn:Ehi.
  all: try apply Qltb_spec in Elo; try apply Qltb_false in Elo.
  all: try apply Qgtb_spec in Ehi; try apply Qgtb_false in Ehi.
  - rewrite !Qmax0_pos by lra. ring.
  - rewrite (Qmax0_pos (min.[i] - p.[i])) by lra.
    rewrite (Qmax0_square_neg (p.[i] - max.[i])) by lra. ring.
  - rewrite (Qmax0_pos (p.[i] - max.[i])) by lra.
    rewrite (Qmax0_square_neg (min.[i] - p.[i])) by lra. ring.
  - rewrite (Qmax0_square_neg (p.[i] - max.[i])) by lra.
    rewrite (Qmax0_square_neg (min.[i] - p.[i])) by lra. ring.
Qed.

(** The loop adds up the squared excesses of the axes it visits. *)
Lemma sqDist_loop (min max p : vec3) (idx : list nat) :
  forall sqDist,
    fold_left (Aabb.sqDist_step min max p) idx sqDist ==
    sqDist + Qsum (fun i => squared_excess min.[i] max.[i] p.[i]) idx.
Proof.
  induction idx as [|i idx IH]; intros sqDist; cbn [fold_left].
  - rewrite Qsum_nil. ring.
  - rewrite IH, sqDist_step_spec, Qsum_cons. ring.
Qed.

Lemma sqDist_excess (b : AxisAlignedBoundingBox) (p : vec3) :
  Aabb.getSquaredDistancePtPointAABB b p ==
  sum_axes (fun i =>
    squared_excess ((Aabb.center b).[i] - (halfExtents b).[i])
                   ((Aabb.center b).[i] + (halfExtents b).[i]) p.[i]).
Proof.
  unfold Aabb.getSquaredDistancePtPointAABB. cbn zeta.
  rewrite sqDist_loop, Qsum_axes. unfold sum_axes. unroll. ring.
Qed.

Lemma squared_excess_nonneg (lo hi v : Q) : 0 <= squared_excess lo hi v.
Proof.
  unfold squared_excess.
  generalize (excess_below lo v), (excess_above hi v). intros a b. nra.
Qed.

(** The squared distance is never negative. *)
Lemma sqDist_nonneg (b : AxisAlignedBoundingBox) (p : vec3) :
  0 <= Aabb.getSquaredDistancePtPointAABB b p.
Proof.
  rewrite sqDist_excess. unfold sum_axes.
  set (c := Aabb.center b). set (h := halfExtents b).
  pose proof (squared_excess_nonneg (c.[0] - h.[0]) (c.[0] + h.[0]) p.[0]).
  pose proof (squared_excess_nonneg (c.[1] - h.[1]) (c.[1] + h.[1]) p.[1]).
  pose proof (squared_excess_nonneg (c.[2] - h.[2]) (c.[2] + h.[2]) p.[2]).
  lra.
Qed.

(** ** isIntersecting *)


Section Dispatch.

Context {BoundingCapsule : Type}.
Variable tests : ClosedFormTests BoundingCapsule.

(** C2.  Whatever the classes of the receiver and of the argument, the
    call returns within a call depth of two: at most one delegation. *)
Theorem isIntersecting_terminates (self bv : BoundingVolume BoundingCapsule) :
  exists r : bool,
    forall depth, isIntersecting tests (S (S depth)) self bv = Some r.
Proof.
  destruct self as [s | a | o | c]; destruct bv as [s' | a' | o' | c'];
    eexists; intros depth; reflexivity.
Qed.

(** The box hands an oriented box or a capsule the call with the roles
    swapped: the answer is the argument's. *)
Lemma AABB_delegates (call : virtual_call BoundingCapsule)
      (a : AxisAlignedBoundingBox) :
  (forall o, AABB_isIntersecting call a (IsOBB o) = call (IsOBB o) (IsAABB a)) /\
  (forall c, AABB_isIntersecting call a (IsCapsule c) = call (IsCapsule c) (IsAABB a)).
Proof. split; reflexivity. Qed.

(** Against an oriented box the box has no test of its own: within a call
    depth of one the call does not return, within two it returns the
    oriented box's answer. *)
Lemma AABB_OBB_one_delegation
      (a : AxisAlignedBoundingBox) (o : OrientedBoundingBox) (depth : nat) :
  isIntersecting tests 1 (IsAABB a) (IsOBB o) = None /\
  isIntersecting tests (S (S depth)) (IsAABB a) (IsOBB o) =
  isIntersecting tests (S depth) (IsOBB o) (IsAABB a).
Proof. split; reflexivity. Qed.

(** Box against sphere agrees with sphere against box, the sphere's side
    being the one the specification describes. *)
Lemma AABB_Sphere_symmetric
      (depth : nat) (a : AxisAlignedBoundingBox) (s : BoundingSphere) :
  isIntersecting tests (S depth) (IsAABB a) (IsSphere s) =
  isIntersecting tests (S depth) (IsSphere s) (IsAABB a).
Proof. reflexivity. Qed.

(** Box against box is symmetric. *)
Lemma AABB_AABB_symmetric (depth : nat) (a b : AxisAlignedBoundingBox) :
  isIntersecting tests (S depth) (IsAABB a) (IsAABB b) =
  isIntersecting tests (S depth) (IsAABB b) (IsAABB a).
Proof.
  cbn [isIntersecting AABB_isIntersecting]. f_equal. unfold Aabb.getHalfExtents.
  generalize axes. intros idx. induction idx as [|i idx IH]; cbn [Aabb.overlap_loop].
  - reflexivity.
  - rewrite IH, (Qabs_Qminus (Aabb.center a).[i]).
    assert (E : Qgtb (Qabs ((Aabb.center b).[i] - (Aabb.center a).[i]))
                     ((halfExtents a).[i] + (halfExtents b).[i]) =
                Qgtb (Qabs ((Aabb.center b).[i] - (Aabb.center a).[i]))
                     ((halfExtents b).[i] + (halfExtents a).[i])).
    { unfold Qgtb. f_equal. apply Qleb_comp; [reflexivity | ring]. }
    rewrite E. reflexivity.
Qed.

End Dispatch.

(** The examples of the specification: unit boxes at distance 3 along x are
    apart, at distance 1.9 they intersect, and at distance 2 they touch and
    intersect. *)
Lemma AABB_axis_examples :
  isIntersecting sample_tests 1
    (IsAABB (unit_box_at 0 0 0)) (IsAABB (unit_box_at 3 0 0)) = Some false /\
  isIntersecting sample_tests 1
    (IsAABB (unit_box_at 0 0 0)) (IsAABB (unit_box_at (19 # 10) 0 0)) = Some true /\
  isIntersecting sample_tests 1
    (IsAABB (unit_box_at 0 0 0)) (IsAABB (unit_box_at 2 0 0)) = Some true.
Proof. repeat split; vm_compute; reflexivity. Qed.

(** * Further properties of the box *)

(** ** update and the other operations *)

(** The last [update] decides the state: nothing of an earlier [update]
    is left, so the extents do not grow from one call to the next. *)
Theorem update_last_wins (t1 t2 : mat4) (self : AxisAlignedBoundingBox) :
  Aabb.update t2 (Aabb.update t1 self) = Aabb.update t2 self.
Proof. apply update_reads_rest_shape, update_keeps_rest_shape. Qed.

(** A copy and a moved-to box lose the centre of the original, but after
    the next [update] they are the updated original. *)
Theorem update_after_copy_or_move (t : mat4) (aabb : AxisAlignedBoundingBox) :
  Aabb.update t (Aabb.copy aabb) = Aabb.update t aabb /\
  Aabb.update t (Aabb.moved aabb) = Aabb.update t aabb /\
  Aabb.moved aabb = Aabb.copy aabb.
Proof.
  split; [ | split].
  - apply update_reads_rest_shape. reflexivity.
  - apply update_reads_rest_shape. reflexivity.
  - reflexivity.
Qed.

(** [setHalfExtents(h)] keeps the centre, and the next [update] leaves the
    box in the state of a box constructed with [h] and updated. *)
Theorem update_after_setHalfExtents
        (t : mat4) (h : vec3) (self : AxisAlignedBoundingBox) :
  Aabb.center (Aabb.setHalfExtents h self) = Aabb.center self /\
  Aabb.update t (Aabb.setHalfExtents h self) = Aabb.update t (Aabb.make h).
Proof.
  split; [reflexivity | ]. apply update_reads_rest_shape. reflexivity.
Qed.

(** When [update] is handed the box's own stored transform by reference,
    the centre is lost: it becomes [(0, 0, 0, 1)].  The extents, the rest
    shape and the upper-left block are those of an [update] with a copy of
    the stored transform. *)
Theorem update_own_resets_centre (self : AxisAlignedBoundingBox) :
  let by_copy := Aabb.update (transform (aabb_base self)) self in
  Aabb.center (Aabb.update_own self) = Vec4 0 0 0 1 /\
  Aabb.center by_copy = Aabb.center self /\
  halfExtents (Aabb.update_own self) = halfExtents by_copy /\
  initialHalfExtents (Aabb.update_own self) = initialHalfExtents self /\
  mat3_of_mat4 (transform (aabb_base (Aabb.update_own self))) =
  mat3_of_mat4 (transform (aabb_base self)).
Proof.
  cbn zeta. split; [reflexivity | split; [reflexivity | split; [reflexivity | split]]].
  - change (initialHalfExtents (Aabb.update_own self))
      with (initialHalfExtents (Aabb.update (transform (aabb_base self)) self)).
    apply update_keeps_rest_shape.
  - destruct self as [[[[a0 a1 a2 a3] [b0 b1 b2 b3] [c0 c1 c2 c3] d]] ih he].
    reflexivity.
Qed.



(** [update] sees the rest half-extents through their absolute values
    only. *)
Theorem update_ignores_signs (t : mat4) (a b : AxisAlignedBoundingBox) :
  (forall j, (j < 3)%nat ->
     Qabs (initialHalfExtents a).[j] == Qabs (initialHalfExtents b).[j]) ->
  vec3_eq (halfExtents (Aabb.update t a)) (halfExtents (Aabb.update t b)).
Proof.
  intros Habs.
  assert (E : forall i, (i < 3)%nat ->
            (halfExtents (Aabb.update t a)).[i] == (halfExtents (Aabb.update t b)).[i]).
  { intros i Hi. rewrite !(update_halfExtents_refit t _ i Hi).
    unfold refit, sum_axes. rewrite !Qabs_Qmult.
    rewrite (Habs 0%nat ltac:(lia)), (Habs 1%nat ltac:(lia)), (Habs 2%nat ltac:(lia)).
    reflexivity. }
  unfold vec3_eq. split; [ | split].
  - exact (E 0%nat ltac:(lia)).
  - exact (E 1%nat ltac:(lia)).
  - exact (E 2%nat ltac:(lia)).
Qed.

Lemma update_ignores_signs_example :
  vec3_eq (halfExtents (Aabb.update quarter_turn (Aabb.make (Vec3 (-1) 2 (-3)))))
          (halfExtents (Aabb.update quarter_turn (Aabb.make (Vec3 1 2 3)))).
Proof.
  apply (update_ignores_signs quarter_turn
           (Aabb.make (Vec3 (-1) 2 (-3))) (Aabb.make (Vec3 1 2 3))).
  intros j Hj. axis_cases j; reflexivity.
Defined.

(** ** The squared distance and the points of the box *)

Lemma Qsquare_nonneg (r : Q) : 0 <= r * r.
Proof. nra. Qed.

Lemma Some_true_inj (b : bool) : Some b = Some true <-> b = true.
Proof. split; [intros H; inversion H; reflexivity | intros ->; reflexivity]. Qed.

Section BoxQueries.

Context {BoundingCapsule : Type}.
Variable tests : ClosedFormTests BoundingCapsule.

(** The sphere's radius counts through its square: the sign of the radius
    does not matter. *)
Theorem AABB_Sphere_radius_sign
        (depth : nat) (a : AxisAlignedBoundingBox) (base : BoundingVolumeBase) (r : Q) :
  isIntersecting tests (S depth) (IsAABB a) (IsSphere (Sphere base (- r))) =
  isIntersecting tests (S depth) (IsAABB a) (IsSphere (Sphere base r)).
Proof.
  cbn [isIntersecting AABB_isIntersecting]. unfold getRadius. cbn [radius sphere_base].
  f_equal. apply Qleb_comp; [reflexivity | ring].
Qed.

(** A sphere that intersects the box still does with a radius that is
    larger in absolute value. *)
Theorem AABB_Sphere_radius_monotone
        (depth : nat) (a : AxisAlignedBoundingBox) (base : BoundingVolumeBase) (r r' : Q) :
  Qabs r <= Qabs r' ->
  isIntersecting tests (S depth) (IsAABB a) (IsSphere (Sphere base r)) = Some true ->
  isIntersecting tests (S depth) (IsAABB a) (IsSphere (Sphere base r')) = Some true.
Proof.
  cbn [isIntersecting AABB_isIntersecting]. unfold getRadius. cbn [radius sphere_base].
  intros Hr H. apply Some_true_inj in H. apply Qle_bool_iff in H.
  apply Some_true_inj. apply Qle_bool_iff.
  eapply Qle_trans; [exact H | ].
  assert (E : forall x, x * x == Qabs x * Qabs x).
  { intros x. rewrite <- Qabs_Qmult. symmetry. apply Qabs_pos, Qsquare_nonneg. }
  rewrite (E r), (E r').
  pose proof (Qabs_nonneg r). nra.
Qed.


End BoxQueries.

(** ** The queries on the example boxes *)

Lemma AABB_Sphere_radius_monotone_example :
  isIntersecting sample_tests 1
    (IsAABB (unit_box_at 0 0 0))
    (IsSphere (Sphere (Base (translation 3 0 0)) (-5))) = Some true.
Proof.
  apply (AABB_Sphere_radius_monotone sample_tests 0
           (unit_box_at 0 0 0) (Base (translation 3 0 0)) 2 (-5)).
  - vm_compute. discriminate.
  - vm_compute. reflexivity.
Defined.

(** * The program in binary32 *)

(** ** Float comparisons *)

Ltac compare_cases :=
  repeat match goal with
  | |- context [Pos.compare_cont Eq ?a ?b] =>
      change (Pos.compare_cont Eq a b) with (Pos.compare a b)
  | H : context [Pos.compare_cont Eq ?a ?b] |- _ =>
      change (Pos.compare_cont Eq a b) with (Pos.compare a b) in H
  | |- context [Z.compare ?a ?b] => destruct (Z.compare_spec a b)
  | H : context [Z.compare ?a ?b] |- _ => destruct (Z.compare_spec a b)
  | |- context [Pos.compare ?a ?b] => destruct (Pos.compare_spec a b)
  | H : context [Pos.compare ?a ?b] |- _ => destruct (Pos.compare_spec a b)
  end.

(** Below [lo] and [lo <= hi] exclude above [hi]. *)
Lemma fltb_fleb_not_fgtb (v lo hi : float) :
  fltb v lo = true -> fleb lo hi = true -> fgtb v hi = false.
Proof.
  unfold fltb, fleb, fgtb, SFltb, SFleb, SFcompare.
  destruct v as [sv | sv | | sv mv ev], lo as [sl | sl | | sl ml el],
           hi as [sh | sh | | sh mh eh];
    try destruct sv; try destruct sl; try destruct sh;
    cbn; try (intros; reflexivity || discriminate).
  all: compare_cases; cbn; intros; try reflexivity; try discriminate; try lia.
Qed.

Lemma fvec3_put_same (v : fvec3) (i : nat) (a : float) : (put v i a).[i] = a.
Proof. destruct i as [|[|i]]; reflexivity. Qed.

Lemma fvec3_put_other (v : fvec3) (i k : nat) (a : float) :
  (i < 3)%nat -> (k < 3)%nat -> i <> k -> (put v i a).[k] = v.[k].
Proof.
  intros Hi Hk Hik. axis_cases i; axis_cases k; try reflexivity; contradiction.
Qed.

(** ** update in binary32 *)

(** The inner loop adds the float terms of the indices it visits to
    [halfExtents[i]], in their order, and touches nothing else. *)
Lemma fupdate_inner_loop (r : fmat3) (i : nat) (idx : list nat) :
  forall self : AxisAlignedBoundingBoxF,
    let self' := fold_left (AabbF.update_inner r i) idx self in
    finitialHalfExtents self' = finitialHalfExtents self /\
    (fhalfExtents self').[i] =
      fsum_from (fun j => fabs (fmul r.[j].[i] (finitialHalfExtents self).[j]))
                idx (fhalfExtents self).[i] /\
    (forall k, (i < 3)%nat -> (k < 3)%nat -> i <> k ->
               (fhalfExtents self').[k] = (fhalfExtents self).[k]).
Proof.
  induction idx as [|j idx IH]; intros self; cbn zeta.
  - split; [reflexivity | split; [reflexivity | ]]. intros; reflexivity.
  - cbn [fold_left].
    destruct (IH (AabbF.update_inner r i self j)) as (Hi & Hs & Ho).
    split; [ | split].
    + rewrite Hi. reflexivity.
    + rewrite Hs. unfold AabbF.update_inner, AabbF.store_halfExtent.
      cbn [fhalfExtents finitialHalfExtents]. rewrite fvec3_put_same. reflexivity.
    + intros k Hi3 Hk3 Hik. rewrite Ho by assumption.
      unfold AabbF.update_inner, AabbF.store_halfExtent. cbn [fhalfExtents].
      apply fvec3_put_other; assumption.
Qed.

Lemma fupdate_outer_turn (r : fmat3) (i : nat) (self : AxisAlignedBoundingBoxF) :
  let self' := AabbF.update_outer r self i in
  finitialHalfExtents self' = finitialHalfExtents self /\
  (fhalfExtents self').[i] =
    fsum_axes (fun j => fabs (fmul r.[j].[i] (finitialHalfExtents self).[j])) /\
  (forall k, (i < 3)%nat -> (k < 3)%nat -> i <> k ->
             (fhalfExtents self').[k] = (fhalfExtents self).[k]).
Proof.
  cbn zeta. unfold AabbF.update_outer.
  destruct (fupdate_inner_loop r i axes (AabbF.store_halfExtent i zero self))
    as (Hi & Hs & Ho).
  split; [ | split].
  - rewrite Hi. reflexivity.
  - rewrite Hs. unfold AabbF.store_halfExtent at 1 2.
    cbn [fhalfExtents finitialHalfExtents]. rewrite fvec3_put_same. reflexivity.
  - intros k Hi3 Hk3 Hik. rewrite Ho by assumption.
    unfold AabbF.store_halfExtent. cbn [fhalfExtents].
    apply fvec3_put_other; assumption.
Qed.

Lemma fupdate_outer_loop (r : fmat3) (self : AxisAlignedBoundingBoxF) :
  let self' := fold_left (AabbF.update_outer r) axes self in
  finitialHalfExtents self' = finitialHalfExtents self /\
  forall i, (i < 3)%nat ->
    (fhalfExtents self').[i] =
    fsum_axes (fun j => fabs (fmul r.[j].[i] (finitialHalfExtents self).[j])).
Proof.
  cbn zeta. unfold axes. cbn [seq fold_left].
  set (s0 := AabbF.update_outer r self 0).
  set (s1 := AabbF.update_outer r s0 1).
  set (s2 := AabbF.update_outer r s1 2).
  destruct (fupdate_outer_turn r 0 self) as (I0 & S0 & _).
  destruct (fupdate_outer_turn r 1 s0) as (I1 & S1 & O1).
  destruct (fupdate_outer_turn r 2 s1) as (I2 & S2 & O2).
  fold s0 in I0, S0. fold s1 in I1, S1, O1. fold s2 in I2, S2, O2.
  split.
  - rewrite I2, I1, I0. reflexivity.
  - intros i Hi. axis_cases i.
    + rewrite (O2 0%nat), (O1 0%nat) by lia. exact S0.
    + rewrite (O2 1%nat) by lia. rewrite S1, I0. reflexivity.
    + rewrite S2, I1, I0. reflexivity.
Qed.

Lemma fupdate_halfExtents (t : fmat4) (self : AxisAlignedBoundingBoxF) (i : nat) :
  (i < 3)%nat ->
  (fhalfExtents (AabbF.update t self)).[i] =
  fsum_axes (fun j =>
    fabs (fmul (fmat3_of_fmat4 t).[j].[i] (finitialHalfExtents self).[j])).
Proof.
  intros Hi.
  change (fhalfExtents (AabbF.update t self))
    with (fhalfExtents (fold_left (AabbF.update_outer (fmat3_of_fmat4 t)) axes self)).
  apply (fupdate_outer_loop (fmat3_of_fmat4 t) self). exact Hi.
Qed.

(** C3, as the code has it.  After [update(transform)] the world
    half-extent of every axis [i] is the float sum, accumulated from [0.f]
    in the order [j = 0, 1, 2], of the floats
    [fabs(R[j][i] * initialHalfExtents[j])]: every product and every
    addition is rounded. *)
Theorem update_sets_halfExtents_binary32
        (t : fmat4) (self : AxisAlignedBoundingBoxF) (i : nat) :
  (i < 3)%nat ->
  (fhalfExtents (AabbF.update t self)).[i] =
  fadd (fadd (fadd zero
    (fabs (fmul (fmat3_of_fmat4 t).[0].[i] (finitialHalfExtents self).[0])))
    (fabs (fmul (fmat3_of_fmat4 t).[1].[i] (finitialHalfExtents self).[1])))
    (fabs (fmul (fmat3_of_fmat4 t).[2].[i] (finitialHalfExtents self).[2])).
Proof.
  intros Hi. rewrite (fupdate_halfExtents t self i Hi). reflexivity.
Qed.

Lemma update_sets_halfExtents_binary32_example :
  (fhalfExtents (AabbF.update frot30 (AabbF.make (FVec3 (lit 5 0) one one)))).[0] =
  fadd (fadd (fadd zero
    (fabs (fmul (fmat3_of_fmat4 frot30).[0].[0] (lit 5 0))))
    (fabs (fmul (fmat3_of_fmat4 frot30).[1].[0] one)))
    (fabs (fmul (fmat3_of_fmat4 frot30).[2].[0] one)).
Proof.
  apply (update_sets_halfExtents_binary32 frot30 (AabbF.make (FVec3 (lit 5 0) one one)) 0).
  lia.
Defined.

(** C3, as stated, fails: with the rest half-extents [(1, 1, 1)] and a
    second column [(2^-24, 1, 0)] the exact sum for axis 0 is [1 + 2^-24],
    and the code stores its rounding, [1]. *)
Lemma update_sum_is_rounded :
  ~ val (fhalfExtents (AabbF.update fskewed (AabbF.make (FVec3 one one one)))).[0] ==
    sum_axes (fun j =>
      Qabs ((mat3_of_mat4 (valm4 fskewed)).[j].[0] * (val3 (FVec3 one one one)).[j])).
Proof. vm_compute. intros H. discriminate H. Qed.




(** ** getSquaredDistancePtPointAABB in binary32 *)

(** With [min[i] <= max[i]] the two [if]s of a turn exclude one another:
    the turn adds the square of the excess, or nothing. *)
Lemma fsqDist_step_spec (min max p : fvec3) (sqDist : float) (i : nat) :
  fleb min.[i] max.[i] = true ->
  AabbF.sqDist_step min max p sqDist i =
  fadd_square sqDist (fexcess min.[i] max.[i] p.[i]).
Proof.
  intros Hbox. unfold AabbF.sqDist_step, fexcess, fadd_square. cbn zeta.
  destruct (fltb p.[i] min.[i]) eqn:Elo.
  - rewrite (fltb_fleb_not_fgtb _ _ _ Elo Hbox). reflexivity.
  - destruct (fgtb p.[i] max.[i]); reflexivity.
Qed.

(** C7, as the code has it.  On a box with [min[i] <= max[i]] on every
    axis, [getSquaredDistancePtPointAABB(p)] is the float sum, accumulated
    from [0.f] over the axes 0, 1, 2, of the float squares of the excess of
    [p[i]] outside [[min[i], max[i]]], with no contribution from an axis
    where [p[i]] lies inside; [min] and [max] are the float
    [center - halfExtents] and [center + halfExtents]. *)
Theorem sqDist_is_clamped_sum_binary32 (b : AxisAlignedBoundingBoxF) (p : fvec3) :
  (forall i, (i < 3)%nat -> fleb (AabbF.box_min b).[i] (AabbF.box_max b).[i] = true) ->
  AabbF.getSquaredDistancePtPointAABB b p =
  fsquared_excess_sum (AabbF.box_min b) (AabbF.box_max b) p.
Proof.
  intros Hbox. unfold AabbF.getSquaredDistancePtPointAABB, fsquared_excess_sum, axes.
  cbn zeta. cbn [seq fold_left].
  rewrite !fsqDist_step_spec by (apply Hbox; lia). reflexivity.
Qed.

Lemma sqDist_is_clamped_sum_binary32_example :
  AabbF.getSquaredDistancePtPointAABB
    (fcube_at one zero zero zero) (FVec3 (lit 2 0) (lit 8193 (-13)) zero) =
  fsquared_excess_sum
    (AabbF.box_min (fcube_at one zero zero zero))
    (AabbF.box_max (fcube_at one zero zero zero))
    (FVec3 (lit 2 0) (lit 8193 (-13)) zero).
Proof.
  apply (sqDist_is_clamped_sum_binary32 (fcube_at one zero zero zero)).
  intros i Hi. axis_cases i; vm_compute; reflexivity.
Defined.

(** C7, as stated, fails on a box constructed with the half-extents
    [(-1, -1, -1)]: for the point [(0, 0, 0)] both [if]s fire on every axis
    and the function returns [6], while the clamped point [(1, 1, 1)] is
    at squared distance [3]. *)
Lemma sqDist_counts_both_sides :
  ~ val (AabbF.getSquaredDistancePtPointAABB
           (AabbF.make (FVec3 (lit (-1) 0) (lit (-1) 0) (lit (-1) 0)))
           (FVec3 zero zero zero)) ==
    sqnorm_diff
      (val3 (FVec3 zero zero zero))
      (closest_point
         (val_box (AabbF.make (FVec3 (lit (-1) 0) (lit (-1) 0) (lit (-1) 0))))
         (val3 (FVec3 zero zero zero))).
Proof. vm_compute. intros H. discriminate H. Qed.

(** ** isIntersecting in binary32 *)

Lemma foverlap_loop_spec (c bc : fvec4) (h bh : fvec3) (idx : list nat) :
  AabbF.overlap_loop c bc h bh idx = true <->
  forall i, In i idx ->
    fgtb (fabs (fsub c.[i] bc.[i])) (fadd h.[i] bh.[i]) = false.
Proof.
  induction idx as [|i idx IH]; cbn [AabbF.overlap_loop].
  - split; [intros _ i [] | reflexivity].
  - destruct (fgtb (fabs (fsub c.[i] bc.[i])) (fadd h.[i] bh.[i])) eqn:E.
    + split; [discriminate | ].
      intros H. specialize (H i (or_introl eq_refl)). congruence.
    + rewrite IH. split.
      * intros H k [<- | Hk]; [exact E | exact (H k Hk)].
      * intros H k Hk. apply H. right. exact Hk.
Qed.

Section BoxQueriesF.

Context {Other : Type}.
Variable call : Other -> AxisAlignedBoundingBoxF -> option bool.

(** C5, as the code has it.  Box against box: the call returns, and it
    returns [true] exactly when on no axis the float
    [fabs(a.center[i] - b.center[i])] is greater than the float
    [a.halfExtents[i] + b.halfExtents[i]], the difference and the sum
    rounded; equality counts as intersecting. *)
Theorem AABB_AABB_interval_overlap_binary32 (a b : AxisAlignedBoundingBoxF) :
  exists r : bool,
    AABB_isIntersectingF call a (FIsAABB b) = Some r /\
    (r = true <->
     forall i, (i < 3)%nat ->
       fgtb (fabs (fsub (AabbF.center a).[i] (AabbF.center b).[i]))
            (fadd (fhalfExtents a).[i] (fhalfExtents b).[i]) = false).
Proof.
  eexists. split; [reflexivity | ].
  rewrite foverlap_loop_spec. unfold AabbF.getHalfExtents.
  split; intros H i Hi; apply H; apply axes_spec; exact Hi.
Qed.


End BoxQueriesF.

Lemma AABB_AABB_interval_overlap_binary32_example :
  AABB_isIntersectingF no_call
    (fcube_at one zero zero zero) (FIsAABB (fcube_at one (lit 2 0) zero zero)) =
  Some true.
Proof.
  destruct (AABB_AABB_interval_overlap_binary32 no_call
              (fcube_at one zero zero zero) (fcube_at one (lit 2 0) zero zero))
    as (r & Hr & Hiff).
  rewrite Hr. f_equal. apply Hiff.
  intros i Hi. axis_cases i; vm_compute; reflexivity.
Defined.

(** C5, as stated, fails: for cubes of half-extents [1] and [3 * 2^-25]
    whose centres are [1 + 2^-23] apart along x, the float sum of the
    half-extents rounds up to [1 + 2^-23], so the code returns [true],
    while the separation exceeds the exact sum [1 + 3 * 2^-25]. *)
Lemma interval_sum_is_rounded :
  AABB_isIntersectingF no_call
    (fcube_at one zero zero zero)
    (FIsAABB (fcube_at (lit 3 (-25)) (lit 8388609 (-23)) zero zero)) = Some true /\
  ~ (forall i, (i < 3)%nat ->
       Qabs ((Aabb.center (val_box (fcube_at one zero zero zero))).[i] -
             (Aabb.center
                (val_box (fcube_at (lit 3 (-25)) (lit 8388609 (-23)) zero zero))).[i]) <=
       (halfExtents (val_box (fcube_at one zero zero zero))).[i] +
       (halfExtents
          (val_box (fcube_at (lit 3 (-25)) (lit 8388609 (-23)) zero zero))).[i]).
Proof.
  split; [vm_compute; reflexivity | ].
  intros H. specialize (H 0%nat ltac:(lia)). vm_compute in H. apply H. reflexivity.
Qed.


